(** * Calibration-loop infrastructure of PFC_Bayesian_Optimization

    A shallow embedding of the Python sources:
    - [source_code/loss_functions.py]: [dtw_distance];
    - [source_code/knowledge_base_manager.py]: [get_params_hash],
      [save_to_knowledge_base], [load_from_knowledge_base],
      [warm_start_optimizer];
    - [main_optimization.py]: [run_simulation], [objective_function];
    - [source_code/pfc_server02.py]: [start_blocking_server],
      [_run_single_simulation];
    - [source_code/data_preprocessor.py]: [process_experimental_data].

    Python floats are modelled as real numbers [R]; [np.inf] is the extra
    point [PInf] of [ext].  Python exceptions are the [Err] case of the
    error monad [exc]. *)

From Stdlib Require Import Reals Lra.
From stdpp Require Import base list gmap strings sorting.

Open Scope R_scope.

(* ------------------------------------------------------------------ *)
(** ** Python exceptions and the error monad *)

Inductive py_exc :=
  | JSONDecodeError
  | KeyError (k : string)
  | TypeError
  | ValueError.

Inductive exc (A : Type) :=
  | Ok (a : A)
  | Err (e : py_exc).
Arguments Ok {A} a.
Arguments Err {A} e.

Global Instance exc_ret : MRet exc := fun A a => Ok a.
Global Instance exc_bind : MBind exc :=
  fun A B f m => match m with Ok a => f a | Err e => Err e end.

(* ------------------------------------------------------------------ *)
(** ** JSON values, as produced by [json.load] / consumed by [json.dump] *)

#[local] Set Warnings "-register-all".
Inductive jvalue :=
  | JNum (x : R)
  | JStr (s : string)
  | JList (xs : list jvalue)
  | JObj (kvs : list (string * jvalue))
  | JNull.

(** [d[k]] on a value decoded from JSON: a JSON object becomes a dict in
    which a repeated key keeps its last value; indexing any other value
    with a string raises [TypeError]. *)
Definition py_getitem (v : jvalue) (k : string) : exc jvalue :=
  match v with
  | JObj kvs =>
      match list_find (fun kv => kv.1 = k) (reverse kvs) with
      | Some (_, (_, x)) => Ok x
      | None => Err (KeyError k)
      end
  | _ => Err TypeError
  end.

(* ------------------------------------------------------------------ *)
(** ** Curves

    A curve of shape (2, M) is the list of its M columns
    [(strain, stress)]; [s[:, i]] is the i-th element. *)

Definition point := (R * R)%type.
Definition curve := list point.

Definition col (s : curve) (i : nat) : point := nth i s (0, 0).

(** [_euclidean_distance]: [np.linalg.norm(p1 - p2)] on 2-vectors. *)
Definition euclidean_distance (p1 p2 : point) : R :=
  sqrt ((p1.1 - p2.1) ^ 2 + (p1.2 - p2.2) ^ 2).

(** Floats with [np.inf]. *)
Inductive ext := Fin (r : R) | PInf.

Definition eadd (x y : ext) : ext :=
  match x, y with Fin a, Fin b => Fin (a + b) | _, _ => PInf end.

Definition emin (x y : ext) : ext :=
  match x, y with
  | Fin a, Fin b => Fin (Rmin a b)
  | PInf, _ => y
  | _, PInf => x
  end.

(** Python's [min(a, b, c)]. *)
Definition emin3 (a b c : ext) : ext := emin (emin a b) c.

Definition enonneg (x : ext) : Prop :=
  match x with Fin r => 0 <= r | PInf => True end.

(* ------------------------------------------------------------------ *)
(** ** [dtw_distance] *)

Module DTW.

(** The cost matrix, [np.full((M, N), np.inf)] and its in-place updates. *)
Definition matrix := nat -> nat -> ext.

Definition mset (m : matrix) (i j : nat) (v : ext) : matrix :=
  fun a b => if decide (a = i /\ b = j) then v else m a b.

Definition full_inf : matrix := fun _ _ => PInf.

Section Fill.
Variables s1 s2 : curve.

Definition d (i j : nat) : R := euclidean_distance (col s1 i) (col s2 j).

(** [for i in range(1, M): cost[i,0] = cost[i-1,0] + dist(s1[:,i], s2[:,0])] *)
Definition fill_first_col (M : nat) (m : matrix) : matrix :=
  foldl (fun m i => mset m i 0 (eadd (m (i - 1)%nat 0%nat) (Fin (d i 0))))
        m (seq 1 (M - 1)).

(** [for j in range(1, N): cost[0,j] = cost[0,j-1] + dist(s1[:,0], s2[:,j])] *)
Definition fill_first_row (N : nat) (m : matrix) : matrix :=
  foldl (fun m j => mset m 0 j (eadd (m 0%nat (j - 1)%nat) (Fin (d 0 j))))
        m (seq 1 (N - 1)).

(** The double loop over [i in range(1, M)], [j in range(1, N)]. *)
Definition fill_cell (i : nat) (m : matrix) (j : nat) : matrix :=
  mset m i j
    (eadd (Fin (d i j))
          (emin3 (m (i - 1)%nat j) (m i (j - 1)%nat) (m (i - 1)%nat (j - 1)%nat))).

Definition fill_row (N : nat) (m : matrix) (i : nat) : matrix :=
  foldl (fill_cell i) m (seq 1 (N - 1)).

Definition fill_rest (M N : nat) (m : matrix) : matrix :=
  foldl (fill_row N) m (seq 1 (M - 1)).

Definition cost_matrix (M N : nat) : matrix :=
  fill_rest M N
    (fill_first_row N
       (fill_first_col M (mset full_inf 0 0 (Fin (d 0 0))))).

(** The DTW recurrence the matrix implements. *)
Fixpoint cost (i : nat) : nat -> R :=
  fix cost_row (j : nat) : R :=
    match i, j with
    | O, O => d 0 0
    | S i', O => cost i' 0 + d i 0
    | O, S j' => cost_row j' + d 0 j
    | S i', S j' => d i j + Rmin (Rmin (cost i' j) (cost_row j')) (cost i' j')
    end.

End Fill.

(** [dtw_distance(s1, s2)]; the shape check [s.shape[0] != 2] never fires
    on a curve, whose columns are pairs. *)
Definition dtw_distance (s1 s2 : curve) : ext :=
  let M := length s1 in
  let N := length s2 in
  if decide (M = 0%nat \/ N = 0%nat) then PInf
  else cost_matrix s1 s2 M N (M - 1)%nat (N - 1)%nat.

End DTW.

(* ------------------------------------------------------------------ *)
(** ** Key-point loss *)

(** [loss = 1e10] in [objective_function]: the large-penalty sentinel. *)
Definition LARGE_PENALTY : R := 10000000000.

Module Keypoint.

Definition EPS : R := / 1000000000.

(** First index of maximal stress ([np.argmax] over the stress row). *)
Fixpoint peak_from (best : point) (rest : curve) : point :=
  match rest with
  | [] => best
  | q :: r => peak_from (if Rlt_dec best.2 q.2 then q else best) r
  end.

Definition peak_point (c : curve) : option point :=
  match c with [] => None | p :: r => Some (peak_from p r) end.

Definition max_strain (c : curve) : option R :=
  match c with [] => None | p :: r => Some (fold_left Rmax (map fst r) p.1) end.

Definition norm (p : point) : R := sqrt (p.1 ^ 2 + p.2 ^ 2).

(** Modelled from the spec: [calculate_keypoint_loss], imported from
    [source_code.loss_functions] by [main_optimization.py] and
    [knowledge_base_manager.py] but not defined in that module.  Following
    the spec (4.2): peak point = (strain, stress) at the maximum stress,
    max strain = maximum of the strain row;
    loss = w_peak * |pt - ps| / (|pt| + eps)
         + w_strain * |mt - ms| / (mt + eps), eps = 1e-9;
    the large-penalty sentinel when a maximum lookup has no data. *)
Definition calculate_keypoint_loss (s_target s_simulated : curve)
    (w_peak_point w_max_strain : R) : R :=
  match peak_point s_target, peak_point s_simulated,
        max_strain s_target, max_strain s_simulated with
  | Some pt, Some ps, Some mt, Some ms =>
      w_peak_point * (norm (pt.1 - ps.1, pt.2 - ps.2) / (norm pt + EPS))
      + w_max_strain * (Rabs (mt - ms) / (mt + EPS))
  | _, _, _, _ => LARGE_PENALTY
  end.

End Keypoint.

(* ------------------------------------------------------------------ *)
(** ** Knowledge base ([knowledge_base_manager.py]) *)

(** A parameter dict in insertion order (keys are distinct). *)
Definition params := list (string * R).

(** A file of [knowledge_base/]: its text either parses as JSON or not. *)
Inductive kb_file := KbUnparsable | KbJson (v : jvalue).

(** The directory [knowledge_base/], file name to contents. *)
Abbreviation kbstore := (gmap string kb_file).

(** [json.load(f)] *)
Definition json_load (f : kb_file) : exc jvalue :=
  match f with KbUnparsable => Err JSONDecodeError | KbJson v => Ok v end.

Definition key_le (kv1 kv2 : string * R) : Prop := String.le kv1.1 kv2.1.
Global Instance key_le_dec : RelDecision key_le :=
  fun kv1 kv2 => String.le_dec kv1.1 kv2.1.

Definition dq : string := String.String (Ascii.ascii_of_nat 34) String.EmptyString.

Module KB.

Section Store.
(** [hashlib.sha256(...).hexdigest()] and [repr] of a float, as used by
    [json.dumps]: library functions, left abstract. *)
Variable sha256_hexdigest : string -> string.
Variable float_repr : R -> string.

(** [sorted(d.items())] in [json.dumps(d, sort_keys=True)]; keys of a dict
    are distinct, so items compare by key. *)
Definition sort_items (d : params) : params := merge_sort key_le d.

Fixpoint join_items (d : params) : string :=
  match d with
  | [] => ""
  | [(k, v)] => dq +:+ k +:+ dq +:+ ": " +:+ float_repr v
  | (k, v) :: rest => dq +:+ k +:+ dq +:+ ": " +:+ float_repr v +:+ ", " +:+ join_items rest
  end.

(** [json.dumps(params_dict, sort_keys=True)] *)
Definition json_dumps_sorted (d : params) : string :=
  "{" +:+ join_items (sort_items d) +:+ "}".

Definition get_params_hash (d : params) : string :=
  sha256_hexdigest (json_dumps_sorted d).

Definition kb_path (d : params) : string := get_params_hash d +:+ ".json".

Definition params_json (d : params) : jvalue :=
  JObj (map (fun kv => (kv.1, JNum kv.2)) d).

Definition save_to_knowledge_base (kb : kbstore) (d : params) (sim_df : curve)
    : kbstore :=
  <[kb_path d := KbJson (JObj [("parameters", params_json d);
                              ("strain", JList (map (fun p => JNum p.1) sim_df));
                              ("stress", JList (map (fun p => JNum p.2) sim_df))])]> kb.

Definition jnum (v : jvalue) : option R :=
  match v with JNum r => Some r | _ => None end.

Definition jnums (v : jvalue) : option (list R) :=
  match v with JList xs => mapM jnum xs | _ => None end.

(** [pd.DataFrame({'Strain': strain, 'Stress': stress})]: two numeric
    columns of equal length; columns of different lengths raise
    [ValueError]; other values are modelled as a [TypeError]. *)
Definition dataframe_of_columns (strain stress : jvalue) : exc curve :=
  match jnums strain, jnums stress with
  | Some xs, Some ys =>
      if decide (length xs = length ys) then Ok (zip xs ys) else Err ValueError
  | _, _ => Err TypeError
  end.

Definition load_from_knowledge_base (kb : kbstore) (d : params)
    : exc (option curve) :=
  match kb !! kb_path d with
  | None => Ok None
  | Some f =>
      data ← json_load f;
      strain ← py_getitem data "strain";
      stress ← py_getitem data "stress";
      c ← dataframe_of_columns strain stress;
      Ok (Some c)
  end.

End Store.

(** [filename.endswith(suffix)] *)
Definition ends_with (s suf : string) : bool :=
  (String.length suf <=? String.length s)%nat &&
  bool_decide (String.substring (String.length s - String.length suf)%nat
                                (String.length suf) s = suf).

(** One iteration of the loop of [warm_start_optimizer]. *)
Definition process_record (param_names : list string) (s_target : curve)
    (w_peak_point w_max_strain : R) (f : kb_file) : exc (list jvalue * R) :=
  data ← json_load f;
  params_dict ← py_getitem data "parameters";
  params_list ← mapM (py_getitem params_dict) param_names;
  strain ← py_getitem data "strain";
  stress ← py_getitem data "stress";
  sim_curve ← dataframe_of_columns strain stress;
  let loss := Keypoint.calculate_keypoint_loss s_target sim_curve
                w_peak_point w_max_strain in
  Ok (params_list, loss).

(** The loop of [warm_start_optimizer], appending to [x0_prior] and
    [y0_prior]; an exception ends the whole function. *)
Definition warm_start_step (param_names : list string) (s_target : curve)
    (w_peak_point w_max_strain : R) (acc : exc (list (list jvalue) * list R))
    (e : string * kb_file) : exc (list (list jvalue) * list R) :=
  '(x0_prior, y0_prior) ← acc;
  '(params_list, loss) ← process_record param_names s_target
                             w_peak_point w_max_strain e.2;
  Ok (x0_prior ++ [params_list], y0_prior ++ [loss]).

(** [warm_start_optimizer]; [listing] is the directory in [os.listdir]
    order, each name with the contents of its file. *)
Definition warm_start_optimizer (param_names : list string) (s_target : curve)
    (w_peak_point w_max_strain : R) (listing : list (string * kb_file))
    : exc (list (list jvalue) * list R) :=
  let kb_files := List.filter (fun e => ends_with e.1 ".json") listing in
  match kb_files with
  | [] => Ok ([], [])
  | _ =>
      foldl (warm_start_step param_names s_target w_peak_point w_max_strain)
            (Ok ([], [])) kb_files
  end.

End KB.

(* ------------------------------------------------------------------ *)
(** ** Optimization client ([main_optimization.py]) *)

Module Client.

Definition W_PEAK_POINT : R := 1.
Definition W_MAX_STRAIN : R := 1.

(** The payload a worker returns after [ACK_RECEIVED], once decoded:
    [json.loads] followed by [pd.DataFrame] either raises or gives a
    frame of [(Strain, Stress)] rows. *)
Inductive reply := RMalformed | RCurve (c : curve).

(** What happens when the client talks to one entry of [SERVER_LIST]:
    - [EPFail]: timeout, refused connection or another socket error;
    - [EPBadAck]: the first [recv] is not [b'ACK_RECEIVED'];
    - [EPReply r]: the acknowledgment, then the payload up to end of
      stream. *)
Inductive endpoint := EPFail | EPBadAck | EPReply (r : reply).

Definition df_empty (c : curve) : bool :=
  match c with [] => true | _ => false end.

Section Run.
Variable sha256_hexdigest : string -> string.
Variable float_repr : R -> string.

Definition save := KB.save_to_knowledge_base sha256_hexdigest float_repr.
Definition load := KB.load_from_knowledge_base sha256_hexdigest float_repr.

(** The [for host, port in SERVER_LIST] loop; a failing endpoint (an
    exception, or a wrong acknowledgment that leaves the [with] block)
    moves on to the next one; after the list, [return pd.DataFrame()].
    [save_to_knowledge_base] is taken to succeed: its directory is created
    by [warm_start_optimizer] before the optimization starts. *)
Fixpoint try_servers (kb : kbstore) (params_dict : params)
    (servers : list endpoint) : kbstore * curve :=
  match servers with
  | [] => (kb, [])
  | EPReply (RCurve sim_df) :: _ =>
      (if df_empty sim_df then kb else save kb params_dict sim_df, sim_df)
  | _ :: rest => try_servers kb params_dict rest
  end.

(** [run_simulation(params_dict)]: the cache first, then the servers.
    An exception while reading a cached file escapes to the caller. *)
Definition run_simulation (kb : kbstore) (params_dict : params)
    (servers : list endpoint) : exc (kbstore * curve) :=
  cached_result ← load kb params_dict;
  match cached_result with
  | Some c => Ok (kb, c)
  | None => Ok (try_servers kb params_dict servers)
  end.

(** [objective_function] for the target [s_target]: every
    exception is caught and the current [loss] (initially [1e10]) is
    returned. *)
Definition objective_function (s_target : curve) (kb : kbstore)
    (params_dict : params) (servers : list endpoint) : kbstore * R :=
  match run_simulation kb params_dict servers with
  | Err _ => (kb, LARGE_PENALTY)
  | Ok (kb', sim_df) =>
      if df_empty sim_df || (length sim_df <? 5)%nat then (kb', LARGE_PENALTY)
      else (kb', Keypoint.calculate_keypoint_loss s_target sim_df
                   W_PEAK_POINT W_MAX_STRAIN)
  end.

End Run.
End Client.

(* ------------------------------------------------------------------ *)
(** ** Simulation worker ([pfc_server02.py]) *)

Module Worker.

Definition bytes := list Byte.byte.

Definition ACK_RECEIVED : bytes := String.list_byte_of_string "ACK_RECEIVED".

(** The worker's observable actions, in program order. *)
Inductive event :=
  | EvAccept                    (* server_socket.accept() returns *)
  | EvRecv (data : bytes)       (* conn.recv(4096) *)
  | EvSend (data : bytes)       (* conn.sendall(...) *)
  | EvDecode (data : bytes)     (* json.loads(data.decode('utf-8')) *)
  | EvSimulate (p : jvalue)     (* _run_single_simulation(params) *)
  | EvCloseConn                 (* leaving [with conn:] *)
  | EvCloseServer.              (* [finally: server_socket.close()] *)

(** How the accept loop ends: still waiting in [accept()] once the
    incoming connections are exhausted, or an exception escaped. *)
Inductive server_exit := Waiting | Crashed (e : py_exc).

Section Server.
(** [json.loads(data.decode('utf-8'))] ([None]: the decode raises),
    the PFC simulation [_run_single_simulation], which catches its own
    errors and returns a result dict, and [json.dumps(...).encode()]. *)
Variable json_loads : bytes -> option jvalue.
Variable run_single_simulation : jvalue -> jvalue.
Variable json_dumps : jvalue -> bytes.

(** The body of [with conn:] for a connection whose first [recv] gives
    [data]; the exception that escapes it, if any.  The [sendall] calls are
    taken to succeed (the client keeps the connection open). *)
Definition handle_conn (data : bytes) : list event * option py_exc :=
  let '(tr, e) :=
    match data with
    | [] => ([EvCloseConn], None)
    | _ =>
        match json_loads data with
        | None => ([EvSend ACK_RECEIVED; EvDecode data; EvCloseConn],
                   Some JSONDecodeError)
        | Some p =>
            let results_dict := run_single_simulation p in
            ([EvSend ACK_RECEIVED; EvDecode data; EvSimulate p;
              EvSend (json_dumps results_dict); EvCloseConn], None)
        end
    end in
  ([EvAccept; EvRecv data] ++ tr, e).

(** [start_blocking_server]'s [while True] loop over the incoming
    connections, each given by the payload of its first [recv]. *)
Fixpoint serve (conns : list bytes) : list event * server_exit :=
  match conns with
  | [] => ([], Waiting)
  | data :: rest =>
      let '(tr, e) := handle_conn data in
      match e with
      | Some err => (tr ++ [EvCloseServer], Crashed err)
      | None => let '(tr', ex) := serve rest in (tr ++ tr', ex)
      end
  end.

End Server.
End Worker.

(* ------------------------------------------------------------------ *)
(** ** The PFC run of the worker ([_run_single_simulation]) *)

Module PFCSim.

(** [str.isspace] on an ASCII character: tab, line feed, vertical tab,
    form feed, carriage return, the separators 0x1c to 0x1f, and space. *)
Definition py_isspace (c : Ascii.ascii) : bool :=
  let n := Ascii.nat_of_ascii c in
  ((9 <=? n) && (n <=? 13) || (28 <=? n) && (n <=? 32))%nat.

(** The end of a word; its characters were collected in reverse. *)
Definition flush_word (acc : list Ascii.ascii) (rest : list string) : list string :=
  match acc with
  | [] => rest
  | _ => String.string_of_list_ascii (reverse acc) :: rest
  end.

Fixpoint split_go (s : string) (acc : list Ascii.ascii) : list string :=
  match s with
  | String.EmptyString => flush_word acc []
  | String.String c s' =>
      if py_isspace c then flush_word acc (split_go s' [])
      else split_go s' (c :: acc)
  end.

(** [line.strip().split()]: the maximal runs of non-whitespace
    characters, in order. *)
Definition py_split (line : string) : list string := split_go line [].

(** The micro-parameters read from [params] in stage 1. *)
Record micro := {
  emod : jvalue; kratio : jvalue; pb_emod : jvalue; pb_kratio : jvalue;
  pb_fric : jvalue; pb_coh : jvalue; pb_ten : jvalue }.

(** [params.get(key, default)]; [None]: [params] is not a dict, and
    [.get] raises [AttributeError]. *)
Definition py_get (params : jvalue) (key : string) (default : jvalue) : option jvalue :=
  match params with
  | JObj _ => match py_getitem params key with Ok v => Some v | Err _ => Some default end
  | _ => None
  end.

Definition micro_of (params : jvalue) : option micro :=
  e ← py_get params "emod" (JNum 10000000000);
  k ← py_get params "kratio" (JNum 2);
  pe ← py_get params "pb_emod" (JNum 50000000000);
  pk ← py_get params "pb_kratio" k;
  pf ← py_get params "pb_fric" (JNum (/ 2));
  pc ← py_get params "pb_coh" (JNum 50000000);
  pt ← py_get params "pb_ten" (JNum 50000000);
  Some {| emod := e; kratio := k; pb_emod := pe; pb_kratio := pk;
          pb_fric := pf; pb_coh := pc; pb_ten := pt |}.

Definition empty_result : jvalue := JObj [("Strain", JList []); ("Stress", JList [])].

Section Run.
(** [float(s)] ([None]: it raises [ValueError]). *)
Variable py_float : string -> option R.

(** Stages 1 to 3 inside PFC, run with the micro-parameters, and the
    export of the histories: the lines of [temp_server_history.txt], or
    [None] when an [it.command] call, or opening or reading the file,
    raises. *)
Variable pfc_history : micro -> option (list string).

(** One line of the history file: [(strain, stress_mpa)] when it has at
    least three fields and fields 1 and 2 are floats; a line raising
    [ValueError] is skipped ([None]). *)
Definition parse_history_line (line : string) : option (R * R) :=
  let parts := py_split line in
  if (3 <=? length parts)%nat then
    p1 ← parts !! 1%nat;
    strain ← py_float p1;
    p2 ← parts !! 2%nat;
    stress_pa ← py_float p2;
    Some (Rabs strain, Rabs stress_pa / 1000000)
  else None.

(** The [for line in f] loop, appending to [strain_list] and
    [stress_list]. *)
Definition parse_history (lines : list string) : list R * list R :=
  foldl (fun acc line =>
           match parse_history_line line with
           | Some (strain, stress_mpa) => (acc.1 ++ [strain], acc.2 ++ [stress_mpa])
           | None => acc
           end) ([], []) lines.

Definition run_single_simulation (params : jvalue) : jvalue :=
  match micro_of params with
  | None => empty_result
  | Some m =>
      match pfc_history m with
      | None => empty_result
      | Some lines =>
          let '(strain_list, stress_list) := parse_history lines in
          match strain_list, stress_list with
          | _ :: _, _ :: _ =>
              JObj [("Strain", JList (map JNum strain_list));
                    ("Stress", JList (map JNum stress_list))]
          | _, _ => empty_result
          end
      end
  end.

End Run.
End PFCSim.

(* ------------------------------------------------------------------ *)
(** ** Target-curve preprocessing ([data_preprocessor.py]) *)

Module Preprocess.









End Preprocess.

(* ------------------------------------------------------------------ *)
(** ** Predicates used in the statements *)

(** A knowledge-base file the warm start cannot read: its text is not
    JSON, it has no ["parameters"] entry, or one of the parameter names is
    missing from that entry. *)
Definition malformed_record (param_names : list string) (f : kb_file) : Prop :=
  f = KbUnparsable \/
  exists v, f = KbJson v /\
    ((exists e, py_getitem v "parameters" = Err e) \/
     (exists pd name e, py_getitem v "parameters" = Ok pd /\
        name ∈ param_names /\ py_getitem pd name = Err e)).

(** An entry of [SERVER_LIST] that yields no curve. *)
Definition endpoint_fails (s : Client.endpoint) : Prop :=
  match s with Client.EPReply (Client.RCurve _) => False | _ => True end.

(* ================================================================== *)
(** * Proofs *)

(* ------------------------------------------------------------------ *)
(** ** DTW: the filled matrix follows the recurrence *)

Module DTWProofs.
Import DTW.

Section Filled.
Variables s1 s2 : curve.
Variables M N : nat.

(** Every in-range cell of region [Rg] holds its recurrence value. *)
Definition filled (Rg : nat -> nat -> Prop) (m : matrix) : Prop :=
  forall a b, (a < M)%nat -> (b < N)%nat -> Rg a b -> m a b = Fin (cost s1 s2 a b).

Lemma filled_weaken (Rg Rg' : nat -> nat -> Prop) m :
  filled Rg m -> (forall a b, (a < M)%nat -> (b < N)%nat -> Rg' a b -> Rg a b) ->
  filled Rg' m.
Proof. intros Hf Hsub a b Ha Hb HR. apply Hf; auto. Qed.

Lemma filled_mset Rg m i j :
  filled Rg m -> (i < M)%nat -> (j < N)%nat ->
  filled (fun a b => Rg a b \/ (a = i /\ b = j))
         (mset m i j (Fin (cost s1 s2 i j))).
Proof.
  intros Hf Hi Hj a b Ha Hb HR. unfold mset.
  destruct (decide (a = i /\ b = j)) as [[-> ->]|Hne]; [done|].
  destruct HR as [HR|HR]; [by apply Hf|done].
Qed.

Lemma fill_first_col_filled Rg m k :
  (k <= M - 1)%nat -> (0 < N)%nat -> filled Rg m -> Rg 0%nat 0%nat ->
  filled (fun a b => Rg a b \/ (b = 0 /\ a <= k)%nat)
         (foldl (fun m i => mset m i 0 (eadd (m (i - 1)%nat 0%nat) (Fin (d s1 s2 i 0))))
                m (seq 1 k)).
Proof.
  intros Hk HN Hf H00. induction k as [|k IH].
  - simpl. eapply filled_weaken; [exact Hf|].
    intros a b ? ? [HR|[-> Ha]]; [done|]. assert (a = 0%nat) as -> by lia. done.
  - rewrite seq_S, foldl_app. simpl.
    set (m' := foldl _ m (seq 1 k)) in *.
    assert (Hk' : m' k 0%nat = Fin (cost s1 s2 k 0)).
    { apply IH; [lia|lia|lia|]. right. lia. }
    replace (k - 0)%nat with k by lia. rewrite Hk'. cbn [eadd].
    assert (Hc : cost s1 s2 k 0 + d s1 s2 (S k) 0 = cost s1 s2 (S k) 0) by reflexivity.
    rewrite Hc.
    eapply filled_weaken; [apply filled_mset; [apply IH; lia|lia|exact HN]|].
    intros a b ? ? [HR|[-> Ha]]; [by left; left|].
    destruct (decide (a = S k)) as [->|]; [by right|]. left; right; lia.
Qed.

Lemma fill_first_row_filled Rg m k :
  (k <= N - 1)%nat -> (0 < M)%nat -> filled Rg m -> Rg 0%nat 0%nat ->
  filled (fun a b => Rg a b \/ (a = 0 /\ b <= k)%nat)
         (foldl (fun m j => mset m 0 j (eadd (m 0%nat (j - 1)%nat) (Fin (d s1 s2 0 j))))
                m (seq 1 k)).
Proof.
  intros Hk HM Hf H00. induction k as [|k IH].
  - simpl. eapply filled_weaken; [exact Hf|].
    intros a b ? ? [HR|[-> Hb]]; [done|]. assert (b = 0%nat) as -> by lia. done.
  - rewrite seq_S, foldl_app. simpl.
    set (m' := foldl _ m (seq 1 k)) in *.
    assert (Hk' : m' 0%nat k = Fin (cost s1 s2 0 k)).
    { apply IH; [lia|lia|lia|]. right. lia. }
    replace (k - 0)%nat with k by lia. rewrite Hk'. cbn [eadd].
    assert (Hc : cost s1 s2 0 k + d s1 s2 0 (S k) = cost s1 s2 0 (S k)) by reflexivity.
    rewrite Hc.
    eapply filled_weaken; [apply filled_mset; [apply IH; lia|exact HM|lia]|].
    intros a b ? ? [HR|[-> Hb]]; [by left; left|].
    destruct (decide (b = S k)) as [->|]; [by right|]. left; right; lia.
Qed.

Lemma fill_row_filled Rg m i k :
  (1 <= i < M)%nat -> (k <= N - 1)%nat -> filled Rg m ->
  (forall b, (b < N)%nat -> Rg (i - 1)%nat b) -> Rg i 0%nat ->
  filled (fun a b => Rg a b \/ (a = i /\ b <= k)%nat) (foldl (fill_cell s1 s2 i) m (seq 1 k)).
Proof.
  intros Hi Hk Hf Hprev Hi0. induction k as [|k IH].
  - simpl. eapply filled_weaken; [exact Hf|].
    intros a b ? ? [HR|[-> Hb]]; [done|]. assert (b = 0%nat) as -> by lia. done.
  - rewrite seq_S, foldl_app. simpl. unfold fill_cell at 1.
    set (m' := foldl _ m (seq 1 k)) in *.
    assert (IH' : filled (fun a b => Rg a b \/ (a = i /\ b <= k)%nat) m') by (apply IH; lia).
    rewrite ?Nat.sub_0_r; replace (S k - 1)%nat with k by lia.
    rewrite (IH' (i - 1)%nat (S k)) by (lia || (left; apply Hprev; lia)).
    rewrite (IH' i k) by (lia || (right; split; lia)).
    rewrite (IH' (i - 1)%nat k) by (lia || (left; apply Hprev; lia)).
    destruct i as [|i']; [lia|]. replace (S i' - 1)%nat with i' by lia.
    cbn [eadd emin3 emin].
    assert (Hc : d s1 s2 (S i') (S k)
                 + Rmin (Rmin (cost s1 s2 i' (S k)) (cost s1 s2 (S i') k)) (cost s1 s2 i' k)
                 = cost s1 s2 (S i') (S k)) by reflexivity.
    rewrite Hc.
    eapply filled_weaken; [apply filled_mset; [exact IH'|lia|lia]|].
    intros a b ? ? [HR|[-> Hb]]; [by left; left|].
    destruct (decide (b = S k)) as [->|]; [by right|]. left; right; lia.
Qed.

Lemma fill_rest_filled m k :
  (k <= M - 1)%nat -> (0 < N)%nat ->
  filled (fun a b => a = 0%nat \/ b = 0%nat) m ->
  filled (fun a b => (a <= k)%nat \/ b = 0%nat) (foldl (fill_row s1 s2 N) m (seq 1 k)).
Proof.
  intros Hk HN Hf. induction k as [|k IH].
  - simpl. eapply filled_weaken; [exact Hf|]. intros a b ? ? [Ha|Hb]; [left; lia|by right].
  - rewrite seq_S, foldl_app. simpl. unfold fill_row at 1.
    eapply filled_weaken.
    + apply (fill_row_filled (fun a b => (a <= k)%nat \/ b = 0%nat) _ (S k) (N - 1));
        [lia|lia|apply IH; lia| |].
      * intros b Hb. left. lia.
      * by right.
    + intros a b ? ? [Ha|Hb]; [|by left; right].
      destruct (decide (a = S k)) as [->|]; [right; split; [done|lia]|left; left; lia].
Qed.

Lemma cost_matrix_filled :
  (0 < M)%nat -> (0 < N)%nat ->
  filled (fun a b => (a <= M - 1)%nat \/ b = 0%nat) (cost_matrix s1 s2 M N).
Proof.
  intros HM HN. unfold cost_matrix.
  apply fill_rest_filled; [lia|done|].
  unfold fill_first_row.
  eapply filled_weaken.
  - apply (fill_first_row_filled (fun a b => (a = 0 /\ b = 0)%nat \/ (b = 0 /\ a <= M - 1)%nat));
      [lia|done| |by left].
    apply (fill_first_col_filled (fun a b => a = 0%nat /\ b = 0%nat)); [lia|done| |done].
    intros a b Ha Hb [Ha0 Hb0]. subst. unfold mset. by rewrite decide_True.
  - intros a b ? ? [->| ->]; [right; split; [done|lia]|left; right; split; [done|lia]].
Qed.

End Filled.

Lemma dtw_distance_cost (s1 s2 : curve) :
  s1 <> [] -> s2 <> [] ->
  dtw_distance s1 s2 = Fin (cost s1 s2 (length s1 - 1) (length s2 - 1)).
Proof.
  intros H1 H2. unfold dtw_distance.
  assert (length s1 <> 0%nat) by (by rewrite length_zero_iff_nil).
  assert (length s2 <> 0%nat) by (by rewrite length_zero_iff_nil).
  rewrite decide_False by tauto.
  apply (cost_matrix_filled s1 s2 (length s1) (length s2)); lia.
Qed.

Lemma euclidean_distance_nonneg p1 p2 : 0 <= euclidean_distance p1 p2.
Proof. apply sqrt_pos. Qed.

Lemma euclidean_distance_refl p : euclidean_distance p p = 0.
Proof.
  unfold euclidean_distance. rewrite !Rminus_diag.
  replace (0 ^ 2 + 0 ^ 2) with 0 by ring. apply sqrt_0.
Qed.

Section CostEquations.
Variables s1 s2 : curve.

Lemma cost_0_0 : cost s1 s2 0 0 = d s1 s2 0 0.
Proof. reflexivity. Qed.
Lemma cost_S_0 i : cost s1 s2 (S i) 0 = cost s1 s2 i 0 + d s1 s2 (S i) 0.
Proof. reflexivity. Qed.
Lemma cost_0_S j : cost s1 s2 0 (S j) = cost s1 s2 0 j + d s1 s2 0 (S j).
Proof. reflexivity. Qed.
Lemma cost_S_S i j :
  cost s1 s2 (S i) (S j) =
  d s1 s2 (S i) (S j)
  + Rmin (Rmin (cost s1 s2 i (S j)) (cost s1 s2 (S i) j)) (cost s1 s2 i j).
Proof. reflexivity. Qed.

Lemma d_nonneg i j : 0 <= d s1 s2 i j.
Proof. apply euclidean_distance_nonneg. Qed.

Lemma cost_nonneg i j : 0 <= cost s1 s2 i j.
Proof.
  revert j. induction i as [|i IHi]; intros j.
  - induction j as [|j IHj].
    + rewrite cost_0_0. apply d_nonneg.
    + rewrite cost_0_S. pose proof (d_nonneg 0 (S j)). lra.
  - induction j as [|j IHj].
    + rewrite cost_S_0. pose proof (IHi 0%nat). pose proof (d_nonneg (S i) 0). lra.
    + rewrite cost_S_S. pose proof (d_nonneg (S i) (S j)).
      assert (0 <= Rmin (Rmin (cost s1 s2 i (S j)) (cost s1 s2 (S i) j)) (cost s1 s2 i j)).
      { repeat apply Rmin_glb; auto. }
      lra.
Qed.

End CostEquations.

Lemma cost_diag (s : curve) i : cost s s i i = 0.
Proof.
  assert (Hd : forall k, d s s k k = 0) by (intros k; apply euclidean_distance_refl).
  induction i as [|i IH]; [by rewrite cost_0_0, Hd|].
  rewrite cost_S_S, Hd, IH.
  pose proof (cost_nonneg s s i (S i)). pose proof (cost_nonneg s s (S i) i).
  assert (Hm : 0 <= Rmin (cost s s i (S i)) (cost s s (S i) i)) by (apply Rmin_glb; auto).
  rewrite (Rmin_right _ 0) by lra. lra.
Qed.

End DTWProofs.

(* ------------------------------------------------------------------ *)
(** ** Knowledge base helpers *)

Module KBProofs.

Lemma mapM_jnum_map (xs : list R) : mapM KB.jnum (map JNum xs) = Some xs.
Proof. induction xs as [|x xs IH]; [done|]. simpl. by rewrite IH. Qed.

Lemma zip_map_fst_snd (c : curve) : zip (map fst c) (map snd c) = c.
Proof. induction c as [|[x y] c IH]; [done|]. simpl. by rewrite IH. Qed.

Lemma getitem_record (a b c : jvalue) :
  py_getitem (JObj [("parameters", a); ("strain", b); ("stress", c)]) "strain" = Ok b /\
  py_getitem (JObj [("parameters", a); ("strain", b); ("stress", c)]) "stress" = Ok c /\
  py_getitem (JObj [("parameters", a); ("strain", b); ("stress", c)]) "parameters" = Ok a.
Proof. split; [|split]; reflexivity. Qed.

Lemma load_save_same sha fr (kb : kbstore) (d : params) (c : curve) :
  KB.load_from_knowledge_base sha fr (KB.save_to_knowledge_base sha fr kb d c) d
  = Ok (Some c).
Proof.
  unfold KB.load_from_knowledge_base, KB.save_to_knowledge_base.
  rewrite lookup_insert_eq. cbn [json_load mbind exc_bind].
  rewrite (proj1 (getitem_record _ _ _)), (proj1 (proj2 (getitem_record _ _ _))).
  cbn [mbind exc_bind].
  unfold KB.dataframe_of_columns, KB.jnums.
  rewrite <- (map_map fst JNum), <- (map_map snd JNum), !mapM_jnum_map.
  rewrite decide_True by (by rewrite !length_map).
  by rewrite zip_map_fst_snd.
Qed.

#[local] Instance key_le_total : Total key_le.
Proof. intros x y. unfold key_le. apply String.le_total. Qed.

#[local] Instance key_le_trans : Transitive key_le.
Proof. intros x y z. unfold key_le. apply String.le_po. Qed.

Lemma NoDup_fst_inj (l : params) x1 x2 :
  NoDup l.*1 -> x1 ∈ l -> x2 ∈ l -> x1.1 = x2.1 -> x1 = x2.
Proof.
  induction l as [|y l IH]; intros Hnd H1 H2 Heq; [by apply not_elem_of_nil in H1|].
  simpl in Hnd. apply NoDup_cons in Hnd as [Hy Hnd].
  apply elem_of_cons in H1 as [->|H1]; apply elem_of_cons in H2 as [->|H2]; try done.
  - destruct Hy. rewrite Heq. by apply list_elem_of_fmap_2.
  - destruct Hy. rewrite <- Heq. by apply list_elem_of_fmap_2.
  - by apply IH.
Qed.

Lemma sort_items_perm (d1 d2 : params) :
  NoDup d1.*1 -> d1 ≡ₚ d2 -> KB.sort_items d1 = KB.sort_items d2.
Proof.
  intros Hnd Hp. unfold KB.sort_items.
  apply (Sorted_unique_strong key_le);
    [| apply Sorted_merge_sort; exact key_le_total.. |].
  - intros x1 x2 Hx1 Hx2 H12 H21.
    rewrite (merge_sort_Permutation key_le d1) in Hx1.
    rewrite (merge_sort_Permutation key_le d2), <- Hp in Hx2.
    apply (NoDup_fst_inj d1); [done..|].
    by apply (anti_symm String.le).
  - by rewrite (merge_sort_Permutation key_le d1), (merge_sort_Permutation key_le d2).
Qed.

End KBProofs.

(* ------------------------------------------------------------------ *)
(** ** Client helpers *)

Module ClientProofs.
Import Client.

Lemma try_servers_all_fail sha fr (kb : kbstore) (d : params) servers :
  Forall endpoint_fails servers -> try_servers sha fr kb d servers = (kb, []).
Proof.
  induction 1 as [|s rest Hs _ IH]; [done|].
  destruct s as [| |[|c]]; simpl in *; done.
Qed.

Lemma try_servers_result sha fr (kb kb' : kbstore) (d : params) servers c :
  try_servers sha fr kb d servers = (kb', c) ->
  (c = [] /\ kb' = kb) \/ (c <> [] /\ kb' = save sha fr kb d c).
Proof.
  induction servers as [|s rest IH]; simpl; intros H.
  - inversion H; subst. by left.
  - destruct s as [| |[|c0]]; try by apply IH.
    inversion H; subst. destruct c as [|p c]; simpl; [by left|].
    right. split; [discriminate|done].
Qed.

End ClientProofs.

(* ------------------------------------------------------------------ *)
(** ** Warm-start helpers *)

Module WarmStartProofs.

Lemma mapM_getitem_err (pd : jvalue) (names : list string) name e :
  name ∈ names -> py_getitem pd name = Err e ->
  exists e', mapM (py_getitem pd) names = Err e'.
Proof.
  induction names as [|n names IH]; intros Hin He; [by apply not_elem_of_nil in Hin|].
  simpl. apply elem_of_cons in Hin as [-> | Hin].
  - rewrite He. by eexists.
  - destruct (py_getitem pd n); [|by eexists]. simpl.
    destruct (IH Hin He) as [e' ->]. by eexists.
Qed.

Lemma process_record_err names t w1 w2 f :
  malformed_record names f -> exists e, KB.process_record names t w1 w2 f = Err e.
Proof.
  intros [-> | (v & -> & [[e He] | (pd & name & e & Hpd & Hin & He)])].
  - by eexists.
  - unfold KB.process_record. simpl. rewrite He. by eexists.
  - unfold KB.process_record. simpl. rewrite Hpd. simpl.
    destruct (mapM_getitem_err pd names name e Hin He) as [e' ->]. by eexists.
Qed.

Lemma foldl_step_err names t w1 w2 l e :
  foldl (KB.warm_start_step names t w1 w2) (Err e) l = Err e.
Proof. induction l; [done|]. simpl. done. Qed.

Lemma foldl_step_err_in names t w1 w2 l acc x :
  x ∈ l -> malformed_record names x.2 ->
  exists e, foldl (KB.warm_start_step names t w1 w2) acc l = Err e.
Proof.
  revert acc. induction l as [|y l IH]; intros acc Hin Hm; [by apply not_elem_of_nil in Hin|].
  simpl. apply elem_of_cons in Hin as [-> | Hin]; [|by apply IH].
  destruct (process_record_err names t w1 w2 _ Hm) as [e He].
  unfold KB.warm_start_step at 2.
  destruct acc as [[x0 y0]|e0]; simpl.
  - rewrite He. simpl. rewrite foldl_step_err. by eexists.
  - rewrite foldl_step_err. by eexists.
Qed.

End WarmStartProofs.

(* ------------------------------------------------------------------ *)
(** ** Worker helpers *)

Module WorkerProofs.
Import Worker.

Lemma app_cons_split {A} (l1 l2 l3 l4 : list A) x :
  l1 ++ x :: l2 = l3 ++ l4 -> x ∉ l3 ->
  exists l, l1 = l3 ++ l /\ l4 = l ++ x :: l2.
Proof.
  revert l1. induction l3 as [|y l3 IH]; intros l1 Heq Hx.
  - by exists l1.
  - destruct l1 as [|z l1]; simpl in Heq; inversion Heq; subst.
    + destruct Hx. by left.
    + destruct (IH l1) as [l [-> ->]]; [done| |].
      * intros Hin. apply Hx. by right.
      * by exists l.
Qed.

Section Server.
Variable json_loads : bytes -> option jvalue.
Variable run_single_simulation : jvalue -> jvalue.
Variable json_dumps : jvalue -> bytes.

(** The events of one connection after [accept] and [recv]. *)
Definition body_ok (data : bytes) (body : list event) : Prop :=
  (data = [] /\ body = [EvCloseConn]) \/
  (data <> [] /\ exists t3, body = EvSend ACK_RECEIVED :: EvDecode data :: t3 /\
     ((json_loads data = None /\ t3 = [EvCloseConn]) \/
      (exists p, json_loads data = Some p /\
         t3 = [EvSimulate p; EvSend (json_dumps (run_single_simulation p)); EvCloseConn]))).

Lemma handle_conn_shape data :
  exists body, (handle_conn json_loads run_single_simulation json_dumps data).1
               = EvAccept :: EvRecv data :: body /\
    (EvAccept ∉ body) /\ body_ok data body.
Proof.
  unfold handle_conn, body_ok.
  destruct data as [|b data].
  - eexists. split; [done|]. split; [|by left].
    intros Hin. apply list_elem_of_singleton in Hin. discriminate.
  - destruct (json_loads (b :: data)) as [p|] eqn:Hj.
    + eexists. split; [done|]. split.
      * intros Hin. repeat (apply elem_of_cons in Hin as [Hin|Hin]; [discriminate|]).
        by apply not_elem_of_nil in Hin.
      * right. split; [discriminate|]. eexists. split; [done|]. right. by exists p.
    + eexists. split; [done|]. split.
      * intros Hin. repeat (apply elem_of_cons in Hin as [Hin|Hin]; [discriminate|]).
        by apply not_elem_of_nil in Hin.
      * right. split; [discriminate|]. eexists. split; [done|]. by left.
Qed.

End Server.
End WorkerProofs.

(* ------------------------------------------------------------------ *)
Module DTWExtra.
Import DTW DTWProofs.

Lemma d_swap s1 s2 i j : d s2 s1 j i = d s1 s2 i j.
Proof. unfold d, euclidean_distance. f_equal. ring. Qed.

Lemma cost_swap s1 s2 i j : cost s2 s1 j i = cost s1 s2 i j.
Proof.
  revert j. induction i as [|i IHi]; intros j.
  - induction j as [|j IHj].
    + rewrite !cost_0_0. apply d_swap.
    + rewrite cost_S_0, cost_0_S, IHj, d_swap. done.
  - induction j as [|j IHj].
    + rewrite cost_0_S, cost_S_0, IHi, d_swap. done.
    + rewrite !cost_S_S, d_swap, IHj, !IHi. f_equal. f_equal. apply Rmin_comm.
Qed.

Lemma fold_plus_snoc (l : list R) x :
  fold_right Rplus 0 (l ++ [x]) = fold_right Rplus 0 l + x.
Proof. induction l as [|a l IH]; simpl; [lra|]. rewrite IH. lra. Qed.

Lemma cost_single_row p (s : curve) j :
  (S j <= length s)%nat ->
  cost [p] s 0 j = fold_right Rplus 0 (map (euclidean_distance p) (take (S j) s)).
Proof.
  induction j as [|j IH]; intros Hj.
  - rewrite cost_0_0. destruct s as [|q s]; simpl in Hj; [lia|]. unfold d, col. simpl. lra.
  - destruct (lookup_lt_is_Some_2 s (S j)) as [q Hq]; [lia|].
    rewrite cost_0_S, IH by lia. rewrite (take_S_r s (S j) q Hq), map_app.
    change (map (euclidean_distance p) [q]) with [euclidean_distance p q].
    rewrite fold_plus_snoc.
    unfold d, col. simpl. by rewrite (nth_lookup_Some s (S j) (0, 0) q Hq).
Qed.

End DTWExtra.

(* ------------------------------------------------------------------ *)
Module KBExtra.

Lemma params_json_getitem (d : params) n :
  n ∈ d.*1 -> exists r, py_getitem (KB.params_json d) n = Ok (JNum r) /\ (n, r) ∈ d.
Proof.
  intros Hn. unfold py_getitem, KB.params_json.
  apply list_elem_of_fmap_1 in Hn as [[n0 r0] [Heq Hin]]. simpl in Heq. subst n0.
  destruct (list_find_elem_of (fun kv : string * jvalue => kv.1 = n)
              (reverse (map (fun kv => (kv.1, JNum kv.2)) d)) (n, JNum r0)) as [[i [k x]] Hf].
  { apply elem_of_reverse, list_elem_of_In, in_map_iff. exists (n, r0).
    split; [done|]. by apply list_elem_of_In. }
  { done. }
  rewrite Hf. apply list_find_Some in Hf as (Hi & Hk & _). simpl in Hk. subst k.
  apply list_elem_of_lookup_2, elem_of_reverse, list_elem_of_In, in_map_iff in Hi
    as [[k' r] [Heq Hin']]. inversion Heq; subst.
  exists r. split; [done|]. by apply list_elem_of_In.
Qed.

Lemma mapM_params_json (d : params) names :
  Forall (fun n => n ∈ d.*1) names ->
  exists vs, mapM (py_getitem (KB.params_json d)) names = Ok vs /\
    Forall2 (fun n v => exists r, v = JNum r /\ (n, r) ∈ d) names vs.
Proof.
  induction 1 as [|n names Hn _ (vs & Hvs & Hall)].
  - by exists [].
  - destruct (params_json_getitem d n Hn) as (r & Hr & Hin).
    exists (JNum r :: vs). cbn [mapM]. rewrite Hr. cbn [mbind exc_bind]. rewrite Hvs. split; [done|].
    constructor; [|done]. by exists r.
Qed.

Lemma warm_start_step_ok names t w1 w2 xs ys e :
  KB.warm_start_step names t w1 w2 (Ok (xs, ys)) e =
  match KB.process_record names t w1 w2 e.2 with
  | Ok (p, loss) => Ok (xs ++ [p], ys ++ [loss])
  | Err err => Err err
  end.
Proof.
  unfold KB.warm_start_step. cbn [mbind exc_bind].
  by destruct (KB.process_record names t w1 w2 e.2) as [[p loss]|err].
Qed.

Lemma foldl_step_mapM names t w1 w2 l xs ys :
  foldl (KB.warm_start_step names t w1 w2) (Ok (xs, ys)) l =
  (rs ← mapM (fun e => KB.process_record names t w1 w2 e.2) l;
   Ok (xs ++ rs.*1, ys ++ rs.*2)).
Proof.
  revert xs ys. induction l as [|e l IH]; intros xs ys.
  - simpl. by rewrite !app_nil_r.
  - cbn [foldl]. rewrite warm_start_step_ok. cbn [mapM].
    destruct (KB.process_record names t w1 w2 e.2) as [[p loss]|err]; simpl.
    + rewrite IH. destruct (mapM _ l) as [rs|err]; simpl; [|done].
      by rewrite <- !app_assoc.
    + apply WarmStartProofs.foldl_step_err.
Qed.

End KBExtra.

(* ------------------------------------------------------------------ *)
Module PreprocessExtra.
Import Preprocess.


Section Argbest.
Variable beats : R -> R -> bool.
Variable ge : R -> R -> Prop.
Hypothesis ge_refl : forall a, ge a a.
Hypothesis ge_trans : forall a b c, ge a b -> ge b c -> ge a c.
Hypothesis beats_true : forall b x, beats b x = true -> ge x b.
Hypothesis beats_false : forall b x, beats b x = false -> ge b x.



End Argbest.




End PreprocessExtra.

(* ------------------------------------------------------------------ *)
Module PFCSimExtra.
Import PFCSim.





End PFCSimExtra.

(* ------------------------------------------------------------------ *)
Module WorkerExtra.
Import Worker.

Section Server.
Variable json_loads : bytes -> option jvalue.
Variable run_single_simulation : jvalue -> jvalue.
Variable json_dumps : jvalue -> bytes.

Lemma serve_segment conns tr ex t1 data t2 :
  serve json_loads run_single_simulation json_dumps conns = (tr, ex) ->
  tr = t1 ++ EvAccept :: EvRecv data :: t2 ->
  exists body t4, t2 = body ++ t4 /\
    WorkerProofs.body_ok json_loads run_single_simulation json_dumps data body.
Proof.
  intros Hserve ->. revert t1 ex Hserve.
  induction conns as [|c rest IH]; intros t1 ex Hserve.
  { simpl in Hserve. inversion Hserve as [Heq]. destruct t1; discriminate. }
  simpl in Hserve.
  destruct (WorkerProofs.handle_conn_shape json_loads run_single_simulation json_dumps c)
    as (body & Hh & Hacc & Hbody).
  destruct (handle_conn _ _ _ c) as [trh e] eqn:Hhc. simpl in Hh. subst trh.
  set (tail := match e with Some _ => [EvCloseServer] | None =>
                 (serve json_loads run_single_simulation json_dumps rest).1 end).
  assert (Htail : t1 ++ EvAccept :: EvRecv data :: t2
                  = (EvAccept :: EvRecv c :: body) ++ tail).
  { subst tail. destruct e as [err|].
    - by inversion Hserve.
    - destruct (serve _ _ _ rest) as [tr' ex']. by inversion Hserve. }
  destruct t1 as [|x t1].
  - simpl in Htail. inversion Htail; subst c. by exists body, tail.
  - simpl in Htail. inversion Htail as [[Hx Htail']]. subst x.
    destruct (WorkerProofs.app_cons_split t1 (EvRecv data :: t2)
                (EvRecv c :: body) tail EvAccept) as (l & -> & Hl).
    { done. }
    { intros Hin. apply elem_of_cons in Hin as [Hin|Hin]; [discriminate|done]. }
    subst tail. destruct e as [err|].
    + destruct l as [|y [|z l]]; simpl in Hl; inversion Hl.
    + destruct (serve json_loads run_single_simulation json_dumps rest)
        as [tr' ex'] eqn:Hs. simpl in Hl.
      apply (IH l ex'). by rewrite <- Hl.
Qed.


End Server.
End WorkerExtra.

(* ================================================================== *)
(** * The claims *)

(** C7: the DTW distance of a non-empty curve with itself is zero (the
    identity alignment costs nothing). *)
Theorem dtw_distance_self_zero (S : curve) (H : S <> []) :
  DTW.dtw_distance S S = Fin 0.
Proof.
  rewrite DTWProofs.dtw_distance_cost by done. by rewrite DTWProofs.cost_diag.
Qed.

Lemma dtw_distance_self_zero_witness :
  DTW.dtw_distance [(1, 2)] [(1, 2)] = Fin 0.
Proof. apply (dtw_distance_self_zero [(1, 2)]). discriminate. Defined.

(** C8: the DTW distance is never negative (the positive infinity [np.inf]
    counts as non-negative), and it is [np.inf] exactly when one of the
    two curves has no point; no error is raised for curves. *)
Theorem dtw_distance_nonneg_inf (s1 s2 : curve) :
  enonneg (DTW.dtw_distance s1 s2) /\
  (DTW.dtw_distance s1 s2 = PInf <-> s1 = [] \/ s2 = []).
Proof.
  destruct (decide (s1 = [] \/ s2 = [])) as [Hemp|Hne].
  - assert (Hinf : DTW.dtw_distance s1 s2 = PInf).
    { unfold DTW.dtw_distance. rewrite decide_True; [done|].
      destruct Hemp as [-> | ->]; simpl; auto. }
    rewrite Hinf. split; [done|]. tauto.
  - rewrite DTWProofs.dtw_distance_cost by tauto.
    split; [apply DTWProofs.cost_nonneg|]. split; [discriminate|tauto].
Qed.

(** C2 (the loss function is modelled from the spec): when the target or
    the simulated curve is empty, so that a maximum lookup has no data,
    the key-point loss is the large-penalty sentinel [1e10]. *)
Theorem keypoint_loss_empty_penalty (s_target s_simulated : curve) (w1 w2 : R)
    (H : s_target = [] \/ s_simulated = []) :
  Keypoint.calculate_keypoint_loss s_target s_simulated w1 w2 = LARGE_PENALTY.
Proof.
  unfold Keypoint.calculate_keypoint_loss.
  destruct H as [-> | ->]; [done|].
  by destruct (Keypoint.peak_point s_target), (Keypoint.max_strain s_target).
Qed.

Lemma keypoint_loss_empty_penalty_witness :
  Keypoint.calculate_keypoint_loss [(1, 2)] [] 1 1 = LARGE_PENALTY.
Proof. apply (keypoint_loss_empty_penalty [(1, 2)] [] 1 1). right. reflexivity. Defined.

(** C5: saving a curve under a parameter dict and loading with the same
    dict gives back that curve, strain and stress alike. *)
Theorem kb_save_load_roundtrip sha256_hexdigest float_repr (kb : kbstore)
    (d : params) (c : curve) :
  KB.load_from_knowledge_base sha256_hexdigest float_repr
    (KB.save_to_knowledge_base sha256_hexdigest float_repr kb d c) d = Ok (Some c).
Proof. apply KBProofs.load_save_same. Qed.

(** C6: two parameter dicts with the same name-to-value pairs, in any
    insertion order, have the same fingerprint: the digest is a function of
    the sorted [json.dumps] text only. *)
Theorem params_hash_order_invariant sha256_hexdigest float_repr (d1 d2 : params)
    (Hnd : NoDup d1.*1) (Hp : d1 ≡ₚ d2) :
  KB.get_params_hash sha256_hexdigest float_repr d1
  = KB.get_params_hash sha256_hexdigest float_repr d2.
Proof.
  unfold KB.get_params_hash, KB.json_dumps_sorted.
  by rewrite (KBProofs.sort_items_perm d1 d2).
Qed.

Lemma params_hash_order_invariant_witness :
  KB.get_params_hash (fun s => s) (fun _ => "1") [("emod", 1); ("kratio", 2)]
  = KB.get_params_hash (fun s => s) (fun _ => "1") [("kratio", 2); ("emod", 1)].
Proof.
  apply (params_hash_order_invariant (fun s => s) (fun _ => "1")
           [("emod", 1); ("kratio", 2)] [("kratio", 2); ("emod", 1)]).
  - apply (bool_decide_unpack _). vm_compute. reflexivity.
  - apply Permutation_swap.
Defined.

(** C1, as stated, fails: with every worker endpoint failing, no fatal
    condition is raised. [run_simulation] returns an empty frame and
    [objective_function] turns it into the penalty [1e10]. *)
Lemma all_workers_fail_no_abort_counterexample :
  Client.run_simulation (fun s => s) (fun _ => "1.0") ∅ [("emod", 1)]
    [Client.EPFail; Client.EPBadAck; Client.EPReply Client.RMalformed] = Ok (∅, [])
  /\ Client.objective_function (fun s => s) (fun _ => "1.0") [] ∅ [("emod", 1)]
    [Client.EPFail; Client.EPBadAck; Client.EPReply Client.RMalformed]
    = (∅, LARGE_PENALTY).
Proof. split; reflexivity. Qed.

(** C1 (amended): on a cache miss where every endpoint fails (timeout,
    refused connection, wrong acknowledgment or unreadable result),
    [run_simulation] returns an empty curve without raising, the store is
    unchanged, and [objective_function] returns the penalty [1e10], so the
    optimization continues. *)
Theorem all_workers_fail_penalty sha256_hexdigest float_repr (s_target : curve)
    (kb : kbstore) (d : params) (servers : list Client.endpoint)
    (Hmiss : Client.load sha256_hexdigest float_repr kb d = Ok None)
    (Hfail : Forall endpoint_fails servers) :
  Client.run_simulation sha256_hexdigest float_repr kb d servers = Ok (kb, [])
  /\ Client.objective_function sha256_hexdigest float_repr s_target kb d servers
     = (kb, LARGE_PENALTY).
Proof.
  assert (Hrun : Client.run_simulation sha256_hexdigest float_repr kb d servers
                 = Ok (kb, [])).
  { unfold Client.run_simulation. rewrite Hmiss. simpl.
    by rewrite ClientProofs.try_servers_all_fail. }
  split; [done|]. unfold Client.objective_function. by rewrite Hrun.
Qed.

Lemma all_workers_fail_penalty_witness :
  Client.run_simulation (fun s => s) (fun _ => "1.0") ∅ [("emod", 1)]
    [Client.EPFail; Client.EPBadAck] = Ok (∅, [])
  /\ Client.objective_function (fun s => s) (fun _ => "1.0") [] ∅ [("emod", 1)]
    [Client.EPFail; Client.EPBadAck] = (∅, LARGE_PENALTY).
Proof.
  apply (all_workers_fail_penalty (fun s => s) (fun _ => "1.0") [] ∅ [("emod", 1)]).
  - reflexivity.
  - repeat constructor.
Defined.

(** C3, as stated, fails: a curve of 3 samples returned by a worker gets
    the penalty, but [run_simulation] has already stored it. *)
Lemma short_curve_persisted_counterexample :
  Client.objective_function (fun s => s) (fun _ => "1.0") [] ∅ [("emod", 1)]
    [Client.EPReply (Client.RCurve [(0, 1); (1, 2); (2, 3)])]
  = (Client.save (fun s => s) (fun _ => "1.0") ∅ [("emod", 1)] [(0, 1); (1, 2); (2, 3)],
     LARGE_PENALTY)
  /\ Client.load (fun s => s) (fun _ => "1.0")
       (Client.save (fun s => s) (fun _ => "1.0") ∅ [("emod", 1)] [(0, 1); (1, 2); (2, 3)])
       [("emod", 1)] = Ok (Some [(0, 1); (1, 2); (2, 3)]).
Proof. split; [reflexivity|apply KBProofs.load_save_same]. Qed.

(** C3 (amended): whenever [run_simulation] gives a curve with fewer than
    5 samples, [objective_function] returns the penalty [1e10]; an empty
    curve leaves the store unchanged, while a non-empty one is in the
    store afterwards (a worker's curve of 1 to 4 samples is persisted). *)
Theorem short_curve_penalty sha256_hexdigest float_repr (s_target : curve)
    (kb kb' : kbstore) (d : params) (servers : list Client.endpoint) (c : curve)
    (Hrun : Client.run_simulation sha256_hexdigest float_repr kb d servers = Ok (kb', c))
    (Hshort : (length c < 5)%nat) :
  Client.objective_function sha256_hexdigest float_repr s_target kb d servers
    = (kb', LARGE_PENALTY)
  /\ (c = [] -> kb' = kb)
  /\ (c <> [] -> Client.load sha256_hexdigest float_repr kb' d = Ok (Some c)).
Proof.
  split; [|split].
  - unfold Client.objective_function. rewrite Hrun.
    assert (Hlt : (length c <? 5)%nat = true) by (apply Nat.ltb_lt; lia).
    by rewrite Hlt, orb_true_r.
  - intros ->. unfold Client.run_simulation in Hrun.
    destruct (Client.load _ _ kb d) as [[c0|]|e]; simpl in Hrun.
    + by inversion Hrun.
    + injection Hrun as Hrun.
      destruct (ClientProofs.try_servers_result _ _ _ _ _ _ _ Hrun) as [[_ ?]|[? _]]; done.
    + discriminate.
  - intros Hne. unfold Client.run_simulation in Hrun.
    destruct (Client.load _ _ kb d) as [[c0|]|e] eqn:Hl; simpl in Hrun.
    + inversion Hrun; subst. done.
    + injection Hrun as Hrun.
      destruct (ClientProofs.try_servers_result _ _ _ _ _ _ _ Hrun) as [[? _]|[_ ->]];
        [done|]. apply KBProofs.load_save_same.
    + discriminate.
Qed.

Lemma short_curve_penalty_witness :
  Client.objective_function (fun s => s) (fun _ => "1.0") [] ∅ [("emod", 1)]
    [Client.EPReply (Client.RCurve [(0, 1)])]
    = (Client.save (fun s => s) (fun _ => "1.0") ∅ [("emod", 1)] [(0, 1)], LARGE_PENALTY)
  /\ ([(0, 1)] = [] -> Client.save (fun s => s) (fun _ => "1.0") ∅ [("emod", 1)] [(0, 1)] = ∅)
  /\ ([(0, 1)] <> [] ->
      Client.load (fun s => s) (fun _ => "1.0")
        (Client.save (fun s => s) (fun _ => "1.0") ∅ [("emod", 1)] [(0, 1)]) [("emod", 1)]
      = Ok (Some [(0, 1)])).
Proof.
  apply (short_curve_penalty (fun s => s) (fun _ => "1.0") [] ∅ _ [("emod", 1)]
           [Client.EPReply (Client.RCurve [(0, 1)])]).
  - reflexivity.
  - simpl. lia.
Defined.

(** C4, as stated, fails: an unparsable file listed before a good one
    makes [warm_start_optimizer] raise; the good record is not used. *)
Lemma malformed_record_aborts_counterexample :
  KB.warm_start_optimizer ["emod"] [(0, 1)] 1 1
    [("a.json", KbUnparsable);
     ("b.json", KbJson (JObj [("parameters", JObj [("emod", JNum 1)]);
                              ("strain", JList [JNum 0]);
                              ("stress", JList [JNum 1])]))]
  = Err JSONDecodeError.
Proof. reflexivity. Qed.

(** C4 (amended): if any [.json] file of the knowledge base is malformed
    (not JSON, no ["parameters"] entry, or a parameter name missing from
    it), [warm_start_optimizer] raises, whatever the position of the file
    in the listing: no record is skipped and no prior is returned. *)
Theorem malformed_record_aborts_warm_start (param_names : list string)
    (s_target : curve) (w_peak_point w_max_strain : R)
    (listing : list (string * kb_file)) (fname : string) (f : kb_file)
    (Hin : (fname, f) ∈ listing)
    (Hjson : KB.ends_with fname ".json" = true)
    (Hbad : malformed_record param_names f) :
  exists e, KB.warm_start_optimizer param_names s_target w_peak_point w_max_strain
              listing = Err e.
Proof.
  unfold KB.warm_start_optimizer.
  assert (Hf : (fname, f) ∈ List.filter (fun e => KB.ends_with e.1 ".json") listing).
  { apply list_elem_of_In, filter_In. split; [by apply list_elem_of_In|done]. }
  destruct (List.filter _ listing) as [|x l] eqn:Hl; [by apply not_elem_of_nil in Hf|].
  by apply (WarmStartProofs.foldl_step_err_in _ _ _ _ _ _ (fname, f)).
Qed.

Lemma malformed_record_aborts_warm_start_witness :
  exists e, KB.warm_start_optimizer ["emod"] [(0, 1)] 1 1
              [("a.json", KbUnparsable)] = Err e.
Proof.
  apply (malformed_record_aborts_warm_start ["emod"] [(0, 1)] 1 1
           [("a.json", KbUnparsable)] "a.json" KbUnparsable).
  - by left.
  - reflexivity.
  - left. reflexivity.
Defined.

(** C9: in the worker's trace, every accepted connection whose first
    [recv] is non-empty continues with the send of [ACK_RECEIVED], then the
    decoding of the payload; when decoding succeeds, the simulation runs and
    only then is the result payload sent. *)
Theorem worker_ack_before_decode json_loads run_single_simulation json_dumps
    (conns : list Worker.bytes) tr ex t1 (data : Worker.bytes) t2
    (Hserve : Worker.serve json_loads run_single_simulation json_dumps conns = (tr, ex))
    (Htr : tr = t1 ++ Worker.EvAccept :: Worker.EvRecv data :: t2)
    (Hdata : data <> []) :
  exists t3, t2 = Worker.EvSend Worker.ACK_RECEIVED :: Worker.EvDecode data :: t3 /\
    ((json_loads data = None /\ exists t4, t3 = Worker.EvCloseConn :: t4) \/
     (exists p t4, json_loads data = Some p /\
        t3 = Worker.EvSimulate p
             :: Worker.EvSend (json_dumps (run_single_simulation p))
             :: Worker.EvCloseConn :: t4)).
Proof.
  subst tr. revert t1 ex Hserve.
  induction conns as [|c rest IH]; intros t1 ex Hserve.
  { simpl in Hserve. inversion Hserve as [Heq]. destruct t1; discriminate. }
  simpl in Hserve.
  destruct (WorkerProofs.handle_conn_shape json_loads run_single_simulation json_dumps c)
    as (body & Hh & Hacc & Hbody).
  destruct (Worker.handle_conn _ _ _ c) as [trh e] eqn:Hhc. simpl in Hh. subst trh.
  set (tail := match e with Some _ => [Worker.EvCloseServer] | None =>
                 (Worker.serve json_loads run_single_simulation json_dumps rest).1 end).
  assert (Htail : t1 ++ Worker.EvAccept :: Worker.EvRecv data :: t2
                  = (Worker.EvAccept :: Worker.EvRecv c :: body) ++ tail
                  /\ (e = None -> ex = (Worker.serve json_loads run_single_simulation
                                         json_dumps rest).2)).
  { subst tail. destruct e as [err|].
    - inversion Hserve. split; [done|discriminate].
    - destruct (Worker.serve _ _ _ rest) as [tr' ex']. inversion Hserve. by split. }
  destruct Htail as [Htail Hex]. clear Hserve.
  destruct t1 as [|x t1].
  - simpl in Htail. inversion Htail as [[Hc Hb]]. subst c.
    destruct Hbody as [[? _]|[_ (t3 & -> & Ht3)]]; [done|].
    exists (t3 ++ tail). split; [done|].
    destruct Ht3 as [[Hj ->]|(p & Hj & ->)].
    + left. split; [done|]. by exists tail.
    + right. exists p, tail. by split.
  - simpl in Htail. inversion Htail as [[Hx Htail']]. subst x.
    destruct (WorkerProofs.app_cons_split t1 (Worker.EvRecv data :: t2)
                (Worker.EvRecv c :: body) tail Worker.EvAccept) as (l & -> & Hl).
    { done. }
    { intros Hin. apply elem_of_cons in Hin as [Hin|Hin]; [discriminate|done]. }
    subst tail. destruct e as [err|].
    + destruct l as [|y [|z l]]; simpl in Hl; inversion Hl.
    + destruct (Worker.serve json_loads run_single_simulation json_dumps rest)
        as [tr' ex'] eqn:Hs. simpl in Hl.
      apply (IH l ex'). by rewrite <- Hl.
Qed.

Lemma worker_ack_before_decode_witness :
  exists t3, [Worker.EvSend Worker.ACK_RECEIVED; Worker.EvDecode [Byte.x7b];
              Worker.EvSimulate JNull; Worker.EvSend []; Worker.EvCloseConn]
             = Worker.EvSend Worker.ACK_RECEIVED :: Worker.EvDecode [Byte.x7b] :: t3 /\
    (((fun _ : Worker.bytes => Some JNull) [Byte.x7b] = None
      /\ exists t4, t3 = Worker.EvCloseConn :: t4) \/
     (exists p t4, (fun _ : Worker.bytes => Some JNull) [Byte.x7b] = Some p /\
        t3 = Worker.EvSimulate p
             :: Worker.EvSend ((fun _ : jvalue => @nil Byte.byte) ((fun v : jvalue => v) p))
             :: Worker.EvCloseConn :: t4)).
Proof.
  apply (worker_ack_before_decode (fun _ => Some JNull) (fun v => v) (fun _ => [])
           [[Byte.x7b]]
           [Worker.EvAccept; Worker.EvRecv [Byte.x7b];
            Worker.EvSend Worker.ACK_RECEIVED; Worker.EvDecode [Byte.x7b];
            Worker.EvSimulate JNull; Worker.EvSend []; Worker.EvCloseConn]
           Worker.Waiting []).
  - reflexivity.
  - reflexivity.
  - discriminate.
Defined.

(** C10: when a payload is not valid JSON (or not UTF-8), the worker has
    already sent [ACK_RECEIVED]; the decoding error leaves the accept loop,
    the listening socket is closed, and no later connection is served. *)
Theorem worker_stops_on_bad_payload json_loads run_single_simulation json_dumps
    (pre : list Worker.bytes) trp (data : Worker.bytes) (rest : list Worker.bytes)
    (Hpre : Worker.serve json_loads run_single_simulation json_dumps pre
            = (trp, Worker.Waiting))
    (Hdata : data <> [])
    (Hbad : json_loads data = None) :
  Worker.serve json_loads run_single_simulation json_dumps (pre ++ data :: rest)
  = (trp ++ [Worker.EvAccept; Worker.EvRecv data; Worker.EvSend Worker.ACK_RECEIVED;
             Worker.EvDecode data; Worker.EvCloseConn; Worker.EvCloseServer],
     Worker.Crashed JSONDecodeError).
Proof.
  revert trp Hpre. induction pre as [|c pre IH]; intros trp Hpre.
  - simpl in Hpre. inversion Hpre; subst. simpl.
    unfold Worker.handle_conn. destruct data as [|b data]; [done|].
    by rewrite Hbad.
  - simpl in Hpre |- *.
    destruct (Worker.handle_conn _ _ _ c) as [trh [err|]]; [discriminate|].
    destruct (Worker.serve _ _ _ pre) as [tr' ex'] eqn:Hs.
    inversion Hpre; subst.
    rewrite (IH tr'); [|done]. by rewrite app_assoc.
Qed.

Lemma worker_stops_on_bad_payload_witness :
  Worker.serve (fun _ => None) (fun v => v) (fun _ => []) ([] ++ [Byte.x7b] :: [[Byte.x7b]])
  = ([] ++ [Worker.EvAccept; Worker.EvRecv [Byte.x7b]; Worker.EvSend Worker.ACK_RECEIVED;
            Worker.EvDecode [Byte.x7b]; Worker.EvCloseConn; Worker.EvCloseServer],
     Worker.Crashed JSONDecodeError).
Proof.
  apply (worker_stops_on_bad_payload (fun _ => None) (fun v => v) (fun _ => [])
           [] [] [Byte.x7b] [[Byte.x7b]]).
  - reflexivity.
  - discriminate.
  - reflexivity.
Defined.

(* ================================================================== *)
(** * Further properties of the code *)

(** The DTW distance does not depend on the order of its arguments: the
    recurrence of the transposed matrix is the same, with the two
    neighbours swapped in [min]. *)
Theorem dtw_distance_symmetric (s1 s2 : curve) :
  DTW.dtw_distance s2 s1 = DTW.dtw_distance s1 s2.
Proof.
  destruct (decide (s1 = [])) as [->|H1]; [by destruct s2|].
  destruct (decide (s2 = [])) as [->|H2]; [by destruct s1|].
  rewrite !DTWProofs.dtw_distance_cost by done. by rewrite DTWExtra.cost_swap.
Qed.

(** Against a one-point curve, the only warping path visits every point
    of the other curve once: the distance is the sum of the distances from
    that point. *)
Theorem dtw_distance_single_point (p : point) (s : curve) (Hs : s <> []) :
  DTW.dtw_distance [p] s = Fin (fold_right Rplus 0 (map (euclidean_distance p) s)).
Proof.
  rewrite DTWProofs.dtw_distance_cost by done.
  assert (Hl : length s <> 0%nat) by (by rewrite length_zero_iff_nil).
  replace (length [p] - 1)%nat with 0%nat by reflexivity.
  rewrite DTWExtra.cost_single_row by lia.
  by rewrite take_ge by lia.
Qed.

Lemma dtw_distance_single_point_witness :
  DTW.dtw_distance [(0, 0)] [(3, 4)]
  = Fin (fold_right Rplus 0 (map (euclidean_distance (0, 0)) [(3, 4)])).
Proof. apply (dtw_distance_single_point (0, 0) [(3, 4)]). discriminate. Defined.

(** [warm_start_optimizer] processes the [.json] files in listing order
    and returns the parameter lists and losses of all of them, or the
    first exception met. *)
Theorem warm_start_is_mapM (param_names : list string) (s_target : curve) (w1 w2 : R)
    (listing : list (string * kb_file)) :
  KB.warm_start_optimizer param_names s_target w1 w2 listing =
  (rs ← mapM (fun e => KB.process_record param_names s_target w1 w2 e.2)
              (List.filter (fun e => KB.ends_with e.1 ".json") listing);
   Ok (rs.*1, rs.*2)).
Proof.
  unfold KB.warm_start_optimizer.
  destruct (List.filter _ listing) as [|e l] eqn:Hf; [done|].
  by rewrite KBExtra.foldl_step_mapM.
Qed.

(** A record written by [save_to_knowledge_base] is read back by the warm
    start: its parameter list holds the saved values of the requested
    names, and its loss is computed on the saved curve. *)
Theorem warm_start_reads_saved_record sha256_hexdigest float_repr
    (param_names : list string) (s_target : curve) (w1 w2 : R)
    (kb : kbstore) (d : params) (c : curve) (f : kb_file)
    (Hnames : Forall (fun n => n ∈ d.*1) param_names)
    (Hf : KB.save_to_knowledge_base sha256_hexdigest float_repr kb d c
            !! KB.kb_path sha256_hexdigest float_repr d = Some f) :
  exists vs,
    KB.process_record param_names s_target w1 w2 f
      = Ok (vs, Keypoint.calculate_keypoint_loss s_target c w1 w2)
    /\ Forall2 (fun n v => exists r, v = JNum r /\ (n, r) ∈ d) param_names vs.
Proof.
  unfold KB.save_to_knowledge_base in Hf. rewrite lookup_insert_eq in Hf.
  injection Hf as <-.
  destruct (KBExtra.mapM_params_json d param_names Hnames) as (vs & Hvs & Hall).
  exists vs. split; [|done].
  unfold KB.process_record. cbn [json_load mbind exc_bind].
  destruct (KBProofs.getitem_record (KB.params_json d)
              (JList (map (fun p => JNum p.1) c)) (JList (map (fun p => JNum p.2) c)))
    as (Hst & Hss & Hpa).
  rewrite Hpa. cbn [mbind exc_bind]. rewrite Hvs. cbn [mbind exc_bind].
  rewrite Hst. cbn [mbind exc_bind]. rewrite Hss. cbn [mbind exc_bind].
  unfold KB.dataframe_of_columns, KB.jnums.
  rewrite <- (map_map fst JNum), <- (map_map snd JNum), !KBProofs.mapM_jnum_map.
  rewrite decide_True by (by rewrite !length_map).
  by rewrite KBProofs.zip_map_fst_snd.
Qed.

Lemma warm_start_reads_saved_record_witness :
  exists vs,
    KB.process_record ["a"] [] 1 1
      (KbJson (JObj [("parameters", JObj [("a", JNum 1)]);
                     ("strain", JList []); ("stress", JList [])]))
      = Ok (vs, Keypoint.calculate_keypoint_loss [] [] 1 1)
    /\ Forall2 (fun n v => exists r, v = JNum r /\ (n, r) ∈ [("a", 1)]) ["a"] vs.
Proof.
  apply (warm_start_reads_saved_record (fun s => s) (fun _ => "1") ["a"] [] 1 1
           ∅ [("a", 1)] []).
  - repeat constructor.
  - reflexivity.
Defined.



(** After [run_simulation] has produced a non-empty curve, evaluating the
    same parameters again answers from the knowledge base with the same
    curve and the same loss, whatever the servers do. *)
Theorem run_simulation_memoized sha256_hexdigest float_repr (s_target : curve)
    (kb kb' : kbstore) (d : params) (servers servers' : list Client.endpoint) (c : curve)
    (Hrun : Client.run_simulation sha256_hexdigest float_repr kb d servers = Ok (kb', c))
    (Hne : c <> []) :
  Client.run_simulation sha256_hexdigest float_repr kb' d servers' = Ok (kb', c)
  /\ Client.objective_function sha256_hexdigest float_repr s_target kb' d servers'
     = (kb', (Client.objective_function sha256_hexdigest float_repr s_target kb d servers).2).
Proof.
  assert (Hagain : Client.run_simulation sha256_hexdigest float_repr kb' d servers'
                   = Ok (kb', c)).
  { unfold Client.run_simulation in Hrun |- *.
    destruct (Client.load _ _ kb d) as [[c0|]|e] eqn:Hl; simpl in Hrun.
    - inversion Hrun; subst. by rewrite Hl.
    - injection Hrun as Hrun.
      destruct (ClientProofs.try_servers_result _ _ _ _ _ _ _ Hrun) as [[? _]|[_ ->]];
        [done|].
      unfold Client.load, Client.save. by rewrite KBProofs.load_save_same.
    - discriminate. }
  split; [done|].
  unfold Client.objective_function. rewrite Hagain, Hrun.
  by destruct (Client.df_empty c || (length c <? 5)%nat).
Qed.

Lemma run_simulation_memoized_witness :
  Client.run_simulation (fun s => s) (fun _ => "1")
    (Client.save (fun s => s) (fun _ => "1") ∅ [] [(1, 1)]) [] [] = 
    Ok (Client.save (fun s => s) (fun _ => "1") ∅ [] [(1, 1)], [(1, 1)])
  /\ Client.objective_function (fun s => s) (fun _ => "1") []
       (Client.save (fun s => s) (fun _ => "1") ∅ [] [(1, 1)]) [] []
     = (Client.save (fun s => s) (fun _ => "1") ∅ [] [(1, 1)],
        (Client.objective_function (fun s => s) (fun _ => "1") [] ∅ []
           [Client.EPReply (Client.RCurve [(1, 1)])]).2).
Proof.
  apply (run_simulation_memoized (fun s => s) (fun _ => "1") [] ∅
           (Client.save (fun s => s) (fun _ => "1") ∅ [] [(1, 1)]) []
           [Client.EPReply (Client.RCurve [(1, 1)])] [] [(1, 1)]).
  - reflexivity.
  - discriminate.
Defined.

(** On a cache miss, failing entries of [SERVER_LIST] are skipped, and the
    first entry that returns a frame decides the result. *)
Theorem run_simulation_failover sha256_hexdigest float_repr (kb : kbstore) (d : params)
    (pre rest : list Client.endpoint) (c : curve)
    (Hmiss : kb !! KB.kb_path sha256_hexdigest float_repr d = None)
    (Hpre : Forall endpoint_fails pre) :
  Client.run_simulation sha256_hexdigest float_repr kb d
    (pre ++ Client.EPReply (Client.RCurve c) :: rest)
  = Ok (if Client.df_empty c then kb
        else Client.save sha256_hexdigest float_repr kb d c, c).
Proof.
  unfold Client.run_simulation, Client.load, KB.load_from_knowledge_base.
  rewrite Hmiss. cbn [mbind exc_bind]. f_equal.
  induction Hpre as [|s pre Hs _ IH]; [done|].
  destruct s as [| |[|c0]]; simpl in *; done.
Qed.

Lemma run_simulation_failover_witness :
  Client.run_simulation (fun s => s) (fun _ => "1") ∅ []
    ([Client.EPFail; Client.EPBadAck; Client.EPReply Client.RMalformed]
     ++ Client.EPReply (Client.RCurve [(1, 1)]) :: [])
  = Ok (if Client.df_empty [(1, 1)] then ∅
        else Client.save (fun s => s) (fun _ => "1") ∅ [] [(1, 1)], [(1, 1)]).
Proof.
  apply (run_simulation_failover (fun s => s) (fun _ => "1") ∅ []
           [Client.EPFail; Client.EPBadAck; Client.EPReply Client.RMalformed] [] [(1, 1)]).
  - reflexivity.
  - repeat constructor.
Defined.

(** A cached file that is not JSON, or has no [strain] or no [stress]
    entry, makes [objective_function] return the penalty for those
    parameters without contacting any server, and nothing is saved. *)
Theorem objective_corrupt_cache_penalty sha256_hexdigest float_repr (s_target : curve)
    (kb : kbstore) (d : params) (servers : list Client.endpoint) (f : kb_file)
    (Hf : kb !! KB.kb_path sha256_hexdigest float_repr d = Some f)
    (Hbad : f = KbUnparsable \/
            exists v e, f = KbJson v /\
              (py_getitem v "strain" = Err e \/ py_getitem v "stress" = Err e)) :
  Client.objective_function sha256_hexdigest float_repr s_target kb d servers
  = (kb, LARGE_PENALTY).
Proof.
  unfold Client.objective_function, Client.run_simulation, Client.load,
    KB.load_from_knowledge_base.
  rewrite Hf.
  destruct Hbad as [-> | (v & e & -> & [He | He])]; [done| |].
  - simpl. by rewrite He.
  - simpl. destruct (py_getitem v "strain"); simpl; [|done]. by rewrite He.
Qed.

Lemma objective_corrupt_cache_penalty_witness :
  Client.objective_function (fun s => s) (fun _ => "1") []
    (<[KB.kb_path (fun s => s) (fun _ => "1") [] := KbUnparsable]> ∅) []
    [Client.EPReply (Client.RCurve [(1, 1); (1, 1); (1, 1); (1, 1); (1, 1)])]
  = (<[KB.kb_path (fun s => s) (fun _ => "1") [] := KbUnparsable]> ∅, LARGE_PENALTY).
Proof.
  apply (objective_corrupt_cache_penalty (fun s => s) (fun _ => "1") []
           (<[KB.kb_path (fun s => s) (fun _ => "1") [] := KbUnparsable]> ∅) []
           [Client.EPReply (Client.RCurve [(1, 1); (1, 1); (1, 1); (1, 1); (1, 1)])]
           KbUnparsable).
  - reflexivity.
  - by left.
Defined.








(** A connection whose first [recv] is empty is closed at once: no
    acknowledgment, no decoding, no simulation. *)
Theorem worker_empty_connection_closed json_loads run_single_simulation json_dumps
    (conns : list Worker.bytes) tr ex t1 t2
    (Hserve : Worker.serve json_loads run_single_simulation json_dumps conns = (tr, ex))
    (Htr : tr = t1 ++ Worker.EvAccept :: Worker.EvRecv [] :: t2) :
  exists t4, t2 = Worker.EvCloseConn :: t4.
Proof.
  destruct (WorkerExtra.serve_segment _ _ _ _ _ _ _ _ _ Hserve Htr)
    as (body & t4 & -> & [[_ ->] | [Hne _]]); [by exists t4|done].
Qed.

Lemma worker_empty_connection_closed_witness :
  exists t4, [Worker.EvCloseConn] = Worker.EvCloseConn :: t4.
Proof.
  apply (worker_empty_connection_closed (fun _ => Some JNull) (fun v => v) (fun _ => [])
           [[]] [Worker.EvAccept; Worker.EvRecv []; Worker.EvCloseConn] Worker.Waiting []).
  - reflexivity.
  - reflexivity.
Defined.



